(** * dataduct: the EMR streaming step (dataduct/steps/emr_streaming.py)

    A shallow embedding of the command builder [create_command], of its two
    layout variants [create_command_hadoop_1] and [create_command_hadoop_2],
    and of the input handling at the head of [EMRStreamingStep.__init__],
    followed by the properties of the command string they produce. *)

From Stdlib Require Import Ascii String List.
From stdpp Require Import base option gmap strings.
Import ListNotations.

Local Open Scope string_scope.
Local Open Scope list_scope.

(** ** Python primitives used by the module *)

(** [sep.join(tokens)] *)
Fixpoint join (sep : string) (tokens : list string) : string :=
  match tokens with
  | [] => ""
  | [t] => t
  | t :: rest => t +:+ sep +:+ join sep rest
  end.

(** [s.split(sep)] for a one-character separator: the pieces of [s] between
    the occurrences of [sep]; the list is never empty. *)
Fixpoint split (sep : ascii) (s : string) : list string :=
  match s with
  | EmptyString => [""]
  | String c s' =>
      if Ascii.eqb c sep then "" :: split sep s'
      else match split sep s' with
           | [] => [String c ""]
           | piece :: pieces => String c piece :: pieces
           end
  end.

(** [c in s] for a character [c] *)
Fixpoint contains (c : ascii) (s : string) : bool :=
  match s with
  | EmptyString => false
  | String c' s' => Ascii.eqb c' c || contains c s'
  end.

(** [x in xs] for a list of strings *)
Definition str_in (x : string) (xs : list string) : bool :=
  existsb (String.eqb x) xs.

(** ** The objects the builder reads

    The classes [S3Path], [S3File] and [S3Node] live in [dataduct.s3] and
    [dataduct.pipeline]; the builder only reads the attributes below. *)

Record S3Path := { uri : string; base_filename : string }.

(** a script: [mapper.s3_path] *)
Record S3File := { s3_path : S3Path }.

(** a data node: [input.path()] *)
Record S3Node := { path : S3Path }.

(** ** The command builder *)

Definition HADOOP_1_SERIES : list string := ["1"; "2"].

Definition streaming_jar : string :=
  "/home/hadoop/contrib/streaming/hadoop-streaming.jar".

(** The list [command] holds when [create_command_hadoop_1] reaches its
    [return]: both [extend] calls on [command_options], then the [extend]
    of [command].  The reducer is a script object or [None]; the test
    [if reducer:] is true of every script object. *)
Definition command_hadoop_1 (mapper : S3File) (reducer : option S3File)
    (command command_options : list string) : list string :=
  let command_options :=
    command_options ++ ["-mapper"; uri (s3_path mapper)] in
  let command_options :=
    match reducer with
    | Some reducer => command_options ++ ["-reducer"; uri (s3_path reducer)]
    | None => command_options
    end in
  command ++ command_options.

Definition create_command_hadoop_1 (mapper : S3File) (reducer : option S3File)
    (command command_options : list string) : string :=
  join "," (command_hadoop_1 mapper reducer command command_options).

(** The list [files] of [create_command_hadoop_2]. *)
Definition files_hadoop_2 (mapper : S3File) (reducer : option S3File)
    : list string :=
  let files := [uri (s3_path mapper)] in
  match reducer with
  | Some reducer => files ++ [uri (s3_path reducer)]
  | None => files
  end.

(** The separator of the files list: the Python literal with four
    backslashes and a comma, that is two backslash characters and a comma. *)
Definition files_sep : string := "\\,".

(** The list [command] holds when [create_command_hadoop_2] reaches its
    [return]. *)
Definition command_hadoop_2 (mapper : S3File) (reducer : option S3File)
    (command command_options : list string) : list string :=
  let files := files_hadoop_2 mapper reducer in
  let command_options :=
    command_options ++ ["-mapper"; base_filename (s3_path mapper)] in
  let command_options :=
    match reducer with
    | Some reducer =>
        command_options ++ ["-reducer"; base_filename (s3_path reducer)]
    | None => command_options
    end in
  let command := command ++ ["-files"; join files_sep files] in
  command ++ command_options.

Definition create_command_hadoop_2 (mapper : S3File) (reducer : option S3File)
    (command command_options : list string) : string :=
  join "," (command_hadoop_2 mapper reducer command command_options).

(** [ami_version.split('.')[0]]; [split] never returns the empty list, so
    the index is always in range. *)
Definition ami_family (ami_version : string) : string :=
  match split "." ami_version with
  | [] => ""
  | family :: _ => family
  end.

(** [command] after the hadoop parameters were added. *)
Definition command_init (hadoop_params : option (list string)) : list string :=
  let command := [streaming_jar] in
  match hadoop_params with
  | Some hadoop_params => command ++ hadoop_params
  | None => command
  end.

(** [command_options] after the output and input uris were added. *)
Definition command_options_init (input output : S3Node) : list string :=
  let command_options := [] in
  let command_options := command_options ++ ["-output"; uri (path output)] in
  command_options ++ ["-input"; uri (path input)].

Definition create_command (mapper : S3File) (reducer : option S3File)
    (ami_version : string) (input output : S3Node)
    (hadoop_params : option (list string)) : string :=
  let ami_family := ami_family ami_version in
  let command := command_init hadoop_params in
  let command_options := command_options_init input output in
  if str_in ami_family HADOOP_1_SERIES
  then create_command_hadoop_1 mapper reducer command command_options
  else create_command_hadoop_2 mapper reducer command command_options.

(** The token list behind the result of [create_command]: the list that is
    joined by the variant chosen. *)
Definition create_command_tokens (mapper : S3File) (reducer : option S3File)
    (ami_version : string) (input output : S3Node)
    (hadoop_params : option (list string)) : list string :=
  let command := command_init hadoop_params in
  let command_options := command_options_init input output in
  if str_in (ami_family ami_version) HADOOP_1_SERIES
  then command_hadoop_1 mapper reducer command command_options
  else command_hadoop_2 mapper reducer command command_options.

(** ** The head of [EMRStreamingStep.__init__]

    The keyword arguments are a dictionary from names to Python values; a
    value is [None] or an object of the type [V]. *)

Inductive exn := ETLInputError (msg : string).

Section Init.
Context {V : Type}.

(** Lines 102-108: what the constructor does with [input_path] and
    [kwargs] before it calls the base class: either it raises, or it goes
    on with the local [input_node] and the [kwargs] handed to
    [super().__init__]. *)
Definition EMRStreamingStep_init (input_path : option string)
    (kwargs : gmap string (option V))
    : exn + (option V * gmap string (option V)) :=
  let '(input_node, kwargs) :=
    match input_path with
    | Some _ =>
        (* input_node = kwargs.pop('input_node', None) *)
        (default None (kwargs !! "input_node"), delete "input_node" kwargs)
    | None =>
        (* input_node = kwargs.get('input_node', None) *)
        (default None (kwargs !! "input_node"), kwargs)
    end in
  if bool_decide (is_Some input_path)
     && bool_decide (is_Some (kwargs !! "input_node"))
  then inl (ETLInputError "Both input_path and input_node specified")
  else inr (input_node, kwargs).
End Init.

(** What [join] writes for the tokens in front of a later token: each one
    followed by the separator. *)
Fixpoint join_front (sep : string) (tokens : list string) : string :=
  match tokens with
  | [] => ""
  | t :: rest => t +:+ sep +:+ join_front sep rest
  end.

(** ** The vocabulary of the specification *)

(** [leading_component v major]: [major] is the text of [v] in front of its
    first ['.'], the whole of [v] when it has none. *)
Definition leading_component (v major : string) : Prop :=
  contains "." major = false
  /\ (v = major \/ exists rest, v = major +:+ "." +:+ rest).

(** The legacy token order of the specification:
    [jar, *extraParams, -output, out, -input, in, -mapper, mapperAddr,
    (-reducer, reducerAddr)]. *)
Definition legacy_layout (mapper : S3File) (reducer : option S3File)
    (input output : S3Node) (hadoop_params : option (list string))
    : list string :=
  [streaming_jar] ++ default [] hadoop_params
  ++ ["-output"; uri (path output); "-input"; uri (path input);
      "-mapper"; uri (s3_path mapper)]
  ++ match reducer with
     | Some reducer => ["-reducer"; uri (s3_path reducer)]
     | None => []
     end.

(** The value that follows [-files] in the modern token order: the mapper's
    address, and after a backslash-backslash-comma the reducer's when there
    is one. *)
Definition modern_files (mapper : S3File) (reducer : option S3File) : string :=
  match reducer with
  | Some reducer =>
      uri (s3_path mapper) +:+ "\\," +:+ uri (s3_path reducer)
  | None => uri (s3_path mapper)
  end.

(** The modern token order of the specification: the [-files] pair after
    the extra parameters and in front of the command options, the scripts
    named by base filename. *)
Definition modern_layout (mapper : S3File) (reducer : option S3File)
    (input output : S3Node) (hadoop_params : option (list string))
    : list string :=
  [streaming_jar] ++ default [] hadoop_params
  ++ ["-files"; modern_files mapper reducer]
  ++ ["-output"; uri (path output); "-input"; uri (path input);
      "-mapper"; base_filename (s3_path mapper)]
  ++ match reducer with
     | Some reducer => ["-reducer"; base_filename (s3_path reducer)]
     | None => []
     end.

(** ** Sample objects *)

Definition word_mapper : S3File :=
  {| s3_path := {| uri := "s3://bucket/word_mapper.py";
                   base_filename := "word_mapper.py" |} |}.

Definition word_reducer : S3File :=
  {| s3_path := {| uri := "s3://bucket/word_reducer.py";
                   base_filename := "word_reducer.py" |} |}.

Definition sample_input : S3Node :=
  {| path := {| uri := "s3://bucket/in"; base_filename := "in" |} |}.

Definition sample_output : S3Node :=
  {| path := {| uri := "s3://bucket/out"; base_filename := "out" |} |}.

(** ** The scripts of the constructor *)

Section Scripts.
(** [self.create_script(S3File(path=p))]: the script object the step makes
    of a local path; the method belongs to the base class [ETLStep]. *)
Variable create_script : string -> S3File.

(** Lines 121-130 of [EMRStreamingStep.__init__]: the list
    [additional_files] and the step string, from the paths of the mapper
    and of the reducer. *)
Definition EMRStreamingStep_init_scripts (mapper : string)
    (reducer : option string) (ami_version : string) (input output : S3Node)
    (hadoop_params : option (list string)) : list S3File * string :=
  let mapper := create_script mapper in
  let additional_files := [mapper] in
  let '(reducer, additional_files) :=
    match reducer with
    | Some reducer =>
        let reducer := create_script reducer in
        (Some reducer, additional_files ++ [reducer])
    | None => (None, additional_files)
    end in
  let step_string :=
    create_command mapper reducer ami_version input output hadoop_params in
  (additional_files, step_string).
End Scripts.

(** ** [EMRStreamingStep.merge_s3_nodes]

    [input_nodes] maps node names to nodes; [input_nodes.values()] lists
    the nodes, in an order the language leaves open.  The result is the
    pair [output_node, depends_on]. *)
Definition merge_s3_nodes {N D : Type} (input_nodes : gmap string N)
    : list N * list D :=
  let depends_on := [] in
  let output_node := snd <$> map_to_list input_nodes in
  (output_node, depends_on).

(** ** Checks of the primitives *)

Example split_dotted : split "." "2.4.0" = ["2"; "4"; "0"].
Proof. reflexivity. Qed.

Example split_edges :
  split "." "" = [""] /\ split "." "." = [""; ""] /\ split "." "3" = ["3"]
  /\ split "." ".1" = [""; "1"] /\ split "." "1.." = ["1"; ""; ""].
Proof. repeat split. Qed.

Example join_three : join "," ["a"; "b"; "c"] = "a,b,c".
Proof. reflexivity. Qed.

Example files_sep_chars :
  files_sep = String "\" (String "\" (String "," "")).
Proof. reflexivity. Qed.

(** ** Strings: append, [join] and [split] *)

Lemma append_cons (c : ascii) (s t : string) :
  String c s +:+ t = String c (s +:+ t).
Proof. reflexivity. Qed.

Lemma append_empty_r (s : string) : s +:+ "" = s.
Proof. induction s as [|c s IH]; [reflexivity|]. rewrite append_cons. by f_equal. Qed.

Lemma append_assoc (s t u : string) : (s +:+ t) +:+ u = s +:+ t +:+ u.
Proof.
  induction s as [|c s IH]; [reflexivity|].
  rewrite !append_cons. by f_equal.
Qed.

Lemma append_cancel_l (p s t : string) : p +:+ s = p +:+ t -> s = t.
Proof. apply (inj (String.append p)). Qed.

Lemma join_cons2 (sep t t' : string) (rest : list string) :
  join sep (t :: t' :: rest) = t +:+ sep +:+ join sep (t' :: rest).
Proof. reflexivity. Qed.

Lemma join_app_cons (sep : string) (front : list string) (t : string)
    (rest : list string) :
  join sep (front ++ t :: rest) = join_front sep front +:+ join sep (t :: rest).
Proof.
  induction front as [|x front IH]; [reflexivity|].
  cbn [app join_front]. rewrite !append_assoc, <- IH.
  by destruct front.
Qed.

Lemma split_not_nil (sep : ascii) (s : string) : split sep s <> [].
Proof.
  induction s as [|c s IH]; cbn [split]; [done|].
  destruct (Ascii.eqb c sep); [done|]. by destruct (split sep s).
Qed.

(** ** The major version *)

Lemma contains_append (c : ascii) (s t : string) :
  contains c (s +:+ t) = contains c s || contains c t.
Proof.
  induction s as [|c' s IH]; [reflexivity|].
  rewrite append_cons. cbn [contains]. rewrite IH. by rewrite orb_assoc.
Qed.

Lemma ami_family_cons (c : ascii) (v : string) :
  ami_family (String c v) =
    if Ascii.eqb c "." then "" else String c (ami_family v).
Proof.
  unfold ami_family. cbn [split].
  destruct (Ascii.eqb c "."); [reflexivity|].
  pose proof (split_not_nil "." v). by destruct (split "." v).
Qed.

Lemma ami_family_leading (v : string) : leading_component v (ami_family v).
Proof.
  induction v as [|c v [IHc IHv]].
  - split; [reflexivity | by left].
  - rewrite ami_family_cons. destruct (Ascii.eqb c ".") eqn:Hc.
    + apply Ascii.eqb_eq in Hc as ->. split; [reflexivity|].
      right. by exists v.
    + split.
      * cbn [contains]. by rewrite Hc, IHc.
      * destruct IHv as [Hv | [rest Hv]].
        -- left. by f_equal.
        -- right. exists rest. rewrite append_cons. by f_equal.
Qed.

Lemma ami_family_append_dot (major rest : string) :
  contains "." major = false ->
  ami_family (major +:+ "." +:+ rest) = major.
Proof.
  induction major as [|c major IH]; intros Hc.
  - reflexivity.
  - cbn [contains] in Hc. apply orb_false_elim in Hc as [Hc Hm].
    rewrite append_cons, ami_family_cons, Hc. f_equal. by apply IH.
Qed.

Lemma ami_family_no_dot (v : string) :
  contains "." v = false -> ami_family v = v.
Proof.
  induction v as [|c v IH]; intros Hc; [reflexivity|].
  cbn [contains] in Hc. apply orb_false_elim in Hc as [Hc Hv].
  rewrite ami_family_cons, Hc. f_equal. by apply IH.
Qed.

Lemma leading_component_ami_family (v major : string) :
  leading_component v major -> ami_family v = major.
Proof.
  intros [Hc [-> | [rest ->]]].
  - by apply ami_family_no_dot.
  - by apply ami_family_append_dot.
Qed.

Lemma str_in_series (family : string) :
  str_in family HADOOP_1_SERIES = true <-> family = "1" \/ family = "2".
Proof.
  unfold str_in, HADOOP_1_SERIES. cbn [existsb].
  rewrite orb_false_r, orb_true_iff, !String.eqb_eq. tauto.
Qed.

Lemma str_in_series_false (family : string) :
  str_in family HADOOP_1_SERIES = false <-> family <> "1" /\ family <> "2".
Proof.
  rewrite <- not_true_iff_false, str_in_series. tauto.
Qed.

(** ** The builder and its token list *)

Lemma create_command_join m r v i o hp :
  create_command m r v i o hp = join "," (create_command_tokens m r v i o hp).
Proof.
  unfold create_command, create_command_tokens, create_command_hadoop_1,
    create_command_hadoop_2.
  by destruct (str_in (ami_family v) HADOOP_1_SERIES).
Qed.

Lemma command_init_default hp : command_init hp = streaming_jar :: default [] hp.
Proof. by destruct hp. Qed.

Lemma command_hadoop_1_layout m r i o hp :
  command_hadoop_1 m r (command_init hp) (command_options_init i o)
  = legacy_layout m r i o hp.
Proof.
  unfold command_hadoop_1, legacy_layout, command_options_init.
  rewrite command_init_default. destruct r; cbn [app]; by rewrite <- ?app_assoc.
Qed.

Lemma command_hadoop_2_layout m r i o hp :
  command_hadoop_2 m r (command_init hp) (command_options_init i o)
  = modern_layout m r i o hp.
Proof.
  unfold command_hadoop_2, modern_layout, command_options_init, files_hadoop_2,
    modern_files, files_sep.
  rewrite command_init_default. destruct r; cbn [app join]; by rewrite <- ?app_assoc.
Qed.

Lemma create_command_tokens_layout m r v i o hp :
  create_command_tokens m r v i o hp =
    if str_in (ami_family v) HADOOP_1_SERIES
    then legacy_layout m r i o hp else modern_layout m r i o hp.
Proof.
  unfold create_command_tokens.
  by rewrite command_hadoop_1_layout, command_hadoop_2_layout.
Qed.

Lemma legacy_layout_front m r i o hp :
  legacy_layout m r i o hp =
    (streaming_jar :: default [] hp)
    ++ "-output" :: uri (path o) :: "-input" :: uri (path i)
       :: "-mapper" :: uri (s3_path m)
       :: match r with
          | Some r => ["-reducer"; uri (s3_path r)]
          | None => []
          end.
Proof. reflexivity. Qed.

Lemma modern_layout_front m r i o hp :
  modern_layout m r i o hp =
    (streaming_jar :: default [] hp)
    ++ "-files" :: modern_files m r
       :: "-output" :: uri (path o) :: "-input" :: uri (path i)
       :: "-mapper" :: base_filename (s3_path m)
       :: match r with
          | Some r => ["-reducer"; base_filename (s3_path r)]
          | None => []
          end.
Proof. reflexivity. Qed.

(** The two layouts never coincide, neither as token lists nor once joined:
    after the common front the one goes on with [-output], the other with
    [-files]. *)
Lemma layouts_joined_differ m r i o hp :
  join "," (legacy_layout m r i o hp) <> join "," (modern_layout m r i o hp).
Proof.
  rewrite legacy_layout_front, modern_layout_front, !join_app_cons.
  intros H%append_cancel_l. rewrite !join_cons2 in H. discriminate H.
Qed.

Lemma layouts_differ m r i o hp :
  legacy_layout m r i o hp <> modern_layout m r i o hp.
Proof. intros H. apply (layouts_joined_differ m r i o hp). by rewrite H. Qed.

(** ** The constructor's input check *)

(** With an [input_path] the constructor pops [input_node] out of [kwargs]
    before it tests whether [kwargs] has it: the test finds nothing. *)
Lemma EMRStreamingStep_init_input_path {V : Type} (input_path : string)
    (kwargs : gmap string (option V)) :
  EMRStreamingStep_init (Some input_path) kwargs
  = inr (default None (kwargs !! "input_node"), delete "input_node" kwargs).
Proof.
  unfold EMRStreamingStep_init. rewrite lookup_delete_eq.
  rewrite (bool_decide_eq_false_2 (is_Some None)); [|by intros [? ?]].
  by rewrite andb_false_r.
Qed.

Lemma EMRStreamingStep_init_no_input_path {V : Type} (kwargs : gmap string (option V)) :
  EMRStreamingStep_init None kwargs = inr (default None (kwargs !! "input_node"), kwargs).
Proof.
  unfold EMRStreamingStep_init.
  by rewrite (bool_decide_eq_false_2 (is_Some None)); [|intros [? ?]].
Qed.

(** C1, at an input with both options: called with
    [input_path='s3://bucket/in'] and the keyword argument
    [input_node='node'], the head of the constructor raises no
    [ETLInputError]; it goes on with the popped node and with keyword
    arguments that no longer hold [input_node]. *)
Theorem EMRStreamingStep_init_both_given :
  EMRStreamingStep_init (Some "s3://bucket/in")
    ({["input_node" := Some "node"]} : gmap string (option string))
  = inr (Some "node", ∅).
Proof.
  rewrite EMRStreamingStep_init_input_path, lookup_singleton_eq, delete_singleton_eq.
  reflexivity.
Qed.

(** The error of the constructor's check is out of reach, whatever the
    arguments. *)
Lemma EMRStreamingStep_init_never_raises {V : Type} (input_path : option string)
    (kwargs : gmap string (option V)) (e : exn) :
  EMRStreamingStep_init input_path kwargs <> inl e.
Proof.
  destruct input_path.
  - by rewrite EMRStreamingStep_init_input_path.
  - by rewrite EMRStreamingStep_init_no_input_path.
Qed.

(** ** Version strings without a separator *)

(** C2, as the code has it: for a version string without ['.'] the major
    version is the whole string; the builder takes the legacy variant when
    that string is "1" or "2" and the modern variant for every other
    string. *)
Theorem create_command_no_separator m r v i o hp :
  contains "." v = false ->
  ami_family v = v
  /\ (v = "1" \/ v = "2" ->
      create_command m r v i o hp
      = create_command_hadoop_1 m r (command_init hp) (command_options_init i o))
  /\ (v <> "1" -> v <> "2" ->
      create_command m r v i o hp
      = create_command_hadoop_2 m r (command_init hp) (command_options_init i o)).
Proof.
  intros Hv%ami_family_no_dot. split; [done|].
  unfold create_command. rewrite Hv. split.
  - intros Hs%str_in_series. by rewrite Hs.
  - intros H1 H2.
    by rewrite (proj2 (str_in_series_false v) (conj H1 H2)).
Qed.

Lemma create_command_no_separator_witness :
  ami_family "3" = "3"
  /\ ("3" = "1" \/ "3" = "2" ->
      create_command word_mapper (Some word_reducer) "3"
        sample_input sample_output None
      = create_command_hadoop_1 word_mapper (Some word_reducer)
          (command_init None) (command_options_init sample_input sample_output))
  /\ ("3" <> "1" -> "3" <> "2" ->
      create_command word_mapper (Some word_reducer) "3"
        sample_input sample_output None
      = create_command_hadoop_2 word_mapper (Some word_reducer)
          (command_init None) (command_options_init sample_input sample_output)).
Proof.
  apply (create_command_no_separator word_mapper (Some word_reducer) "3"
           sample_input sample_output None).
  reflexivity.
Defined.

(** C2 as stated fails: the version string "2" has no ['.'], and the builder
    takes the legacy variant for it, not the modern one. *)
Lemma no_separator_version_2_is_legacy :
  contains "." "2" = false
  /\ create_command word_mapper None "2" sample_input sample_output None
     = create_command_hadoop_1 word_mapper None
         (command_init None) (command_options_init sample_input sample_output)
  /\ create_command word_mapper None "2" sample_input sample_output None
     = "/home/hadoop/contrib/streaming/hadoop-streaming.jar,-output,s3://bucket/out,-input,s3://bucket/in,-mapper,s3://bucket/word_mapper.py"
  /\ create_command word_mapper None "2" sample_input sample_output None
     <> create_command_hadoop_2 word_mapper None
          (command_init None) (command_options_init sample_input sample_output).
Proof. repeat split. discriminate. Qed.

(** ** The dispatch on the major version *)

(** C3: with [major] the text in front of the first ['.'] of the version
    string, the builder's tokens are the legacy layout exactly when [major]
    is "1" or "2", and the modern layout exactly when it is neither; the
    same holds of the joined string, which the builder returns. *)
Theorem create_command_layout_by_major m r v i o hp major :
  leading_component v major ->
  (major = "1" \/ major = "2"
   <-> create_command_tokens m r v i o hp = legacy_layout m r i o hp)
  /\ (~ (major = "1" \/ major = "2")
      <-> create_command_tokens m r v i o hp = modern_layout m r i o hp)
  /\ (major = "1" \/ major = "2"
      <-> create_command m r v i o hp = join "," (legacy_layout m r i o hp))
  /\ (~ (major = "1" \/ major = "2")
      <-> create_command m r v i o hp = join "," (modern_layout m r i o hp)).
Proof.
  intros Hv%leading_component_ami_family.
  rewrite create_command_join, create_command_tokens_layout, Hv.
  pose proof (layouts_differ m r i o hp) as Hd.
  pose proof (layouts_joined_differ m r i o hp) as Hj.
  destruct (str_in major HADOOP_1_SERIES) eqn:Hs.
  - apply str_in_series in Hs. split_and!; split; by intros H.
  - apply str_in_series_false in Hs as [H1 H2].
    assert (~ (major = "1" \/ major = "2")) as Hn by tauto.
    split_and!; split; by intros H.
Qed.

Lemma create_command_layout_by_major_witness :
  (("2" : string) = "1" \/ ("2" : string) = "2"
   <-> create_command_tokens word_mapper (Some word_reducer) "2.4.0"
         sample_input sample_output None
       = legacy_layout word_mapper (Some word_reducer)
           sample_input sample_output None)
  /\ (~ (("2" : string) = "1" \/ ("2" : string) = "2")
      <-> create_command_tokens word_mapper (Some word_reducer) "2.4.0"
            sample_input sample_output None
          = modern_layout word_mapper (Some word_reducer)
              sample_input sample_output None)
  /\ (("2" : string) = "1" \/ ("2" : string) = "2"
      <-> create_command word_mapper (Some word_reducer) "2.4.0"
            sample_input sample_output None
          = join "," (legacy_layout word_mapper (Some word_reducer)
                        sample_input sample_output None))
  /\ (~ (("2" : string) = "1" \/ ("2" : string) = "2")
      <-> create_command word_mapper (Some word_reducer) "2.4.0"
            sample_input sample_output None
          = join "," (modern_layout word_mapper (Some word_reducer)
                        sample_input sample_output None)).
Proof.
  apply (create_command_layout_by_major word_mapper (Some word_reducer)
           "2.4.0" sample_input sample_output None "2").
  split; [reflexivity|]. right. exists "4.0". reflexivity.
Defined.

(** ** The extra parameters *)

(** C4: when [hadoop_params] is given, the token list starts with the jar
    path, goes on with the parameters as they are and in their order, and
    only then come the generic options of the variant (nothing for the
    legacy one, the [-files] pair for the modern one) and the [-output]
    token; the returned string is the comma join of that list. *)
Theorem hadoop_params_position m r v i o (hadoop_params : list string) :
  let generic :=
    if str_in (ami_family v) HADOOP_1_SERIES then []
    else ["-files"; modern_files m r] in
  exists rest,
    create_command_tokens m r v i o (Some hadoop_params)
    = streaming_jar :: hadoop_params ++ generic ++ "-output" :: rest
    /\ create_command m r v i o (Some hadoop_params)
       = join "," (streaming_jar :: hadoop_params ++ generic ++ "-output" :: rest).
Proof.
  cbn zeta. rewrite create_command_join, create_command_tokens_layout.
  destruct (str_in (ami_family v) HADOOP_1_SERIES).
  - rewrite legacy_layout_front. eexists. split; reflexivity.
  - rewrite modern_layout_front. eexists. split; reflexivity.
Qed.

(** ** The files list of the modern variant *)

Lemma files_hadoop_2_mapper m ro :
  exists others, files_hadoop_2 m ro = uri (s3_path m) :: others.
Proof. destruct ro; by eexists. Qed.

(** With a reducer, [create_command_hadoop_2] puts the [-files] pair after
    the command it is given and in front of the command options. *)
Lemma create_command_hadoop_2_files m reducer command command_options :
  create_command_hadoop_2 m (Some reducer) command command_options
  = join ","
      (command
       ++ ["-files"; uri (s3_path m) +:+ "\\," +:+ uri (s3_path reducer)]
       ++ command_options
       ++ ["-mapper"; base_filename (s3_path m);
           "-reducer"; base_filename (s3_path reducer)]).
Proof.
  unfold create_command_hadoop_2, command_hadoop_2, files_hadoop_2.
  cbn [app join]. by rewrite <- !app_assoc.
Qed.

(** C5: for a major version other than "1" and "2", with a mapper and a
    reducer, the builder returns the comma join of a token list in which
    the token after [-files] is the mapper's address, two backslash
    characters and a comma, and the reducer's address; it is the result of
    the modern variant, and the files list starts with the mapper's
    address. *)
Theorem modern_files_value m reducer v i o hp major :
  leading_component v major -> major <> "1" -> major <> "2" ->
  create_command m (Some reducer) v i o hp
  = join ","
      ((streaming_jar :: default [] hp)
       ++ ["-files";
           uri (s3_path m)
           +:+ String "\" (String "\" (String "," ""))
           +:+ uri (s3_path reducer)]
       ++ ["-output"; uri (path o); "-input"; uri (path i);
           "-mapper"; base_filename (s3_path m);
           "-reducer"; base_filename (s3_path reducer)])
  /\ create_command m (Some reducer) v i o hp
     = create_command_hadoop_2 m (Some reducer)
         (command_init hp) (command_options_init i o)
  /\ create_command_tokens m (Some reducer) v i o hp
     = (streaming_jar :: default [] hp)
       ++ ["-files";
           uri (s3_path m)
           +:+ String "\" (String "\" (String "," ""))
           +:+ uri (s3_path reducer)]
       ++ ["-output"; uri (path o); "-input"; uri (path i);
           "-mapper"; base_filename (s3_path m);
           "-reducer"; base_filename (s3_path reducer)]
  /\ files_hadoop_2 m (Some reducer)
     = [uri (s3_path m); uri (s3_path reducer)]
  /\ files_hadoop_2 m None = [uri (s3_path m)].
Proof.
  intros Hv%leading_component_ami_family H1 H2.
  pose proof (proj2 (str_in_series_false major) (conj H1 H2)) as Hs.
  split_and!.
  - by rewrite create_command_join, create_command_tokens_layout, Hv, Hs.
  - unfold create_command. by rewrite Hv, Hs.
  - by rewrite create_command_tokens_layout, Hv, Hs.
  - reflexivity.
  - reflexivity.
Qed.

Lemma modern_files_value_witness :
  create_command word_mapper (Some word_reducer) "4.1.0"
    sample_input sample_output None
  = join ","
      ([streaming_jar]
       ++ ["-files";
           "s3://bucket/word_mapper.py"
           +:+ String "\" (String "\" (String "," ""))
           +:+ "s3://bucket/word_reducer.py"]
       ++ ["-output"; "s3://bucket/out"; "-input"; "s3://bucket/in";
           "-mapper"; "word_mapper.py"; "-reducer"; "word_reducer.py"])
  /\ create_command word_mapper (Some word_reducer) "4.1.0"
       sample_input sample_output None
     = create_command_hadoop_2 word_mapper (Some word_reducer)
         (command_init None) (command_options_init sample_input sample_output)
  /\ create_command_tokens word_mapper (Some word_reducer) "4.1.0"
       sample_input sample_output None
     = [streaming_jar]
       ++ ["-files";
           "s3://bucket/word_mapper.py"
           +:+ String "\" (String "\" (String "," ""))
           +:+ "s3://bucket/word_reducer.py"]
       ++ ["-output"; "s3://bucket/out"; "-input"; "s3://bucket/in";
           "-mapper"; "word_mapper.py"; "-reducer"; "word_reducer.py"]
  /\ files_hadoop_2 word_mapper (Some word_reducer)
     = ["s3://bucket/word_mapper.py"; "s3://bucket/word_reducer.py"]
  /\ files_hadoop_2 word_mapper None = ["s3://bucket/word_mapper.py"].
Proof.
  apply (modern_files_value word_mapper word_reducer "4.1.0"
           sample_input sample_output None "4").
  - split; [reflexivity|]. right. exists "1.0". reflexivity.
  - discriminate.
  - discriminate.
Defined.

(** ** The examples of the specification *)

(** C6: mapper at s3://bucket/word_mapper.py, no reducer, version "2.4.0",
    no extra parameters: the result is the comma join of the jar path,
    [-output] and the output address, [-input] and the input address,
    [-mapper] and the mapper's address. *)
Theorem create_command_example_legacy (name : string) (input output : S3Node) :
  create_command
    {| s3_path := {| uri := "s3://bucket/word_mapper.py";
                     base_filename := name |} |}
    None "2.4.0" input output None
  = join ","
      ["/home/hadoop/contrib/streaming/hadoop-streaming.jar";
       "-output"; uri (path output); "-input"; uri (path input);
       "-mapper"; "s3://bucket/word_mapper.py"].
Proof. reflexivity. Qed.

(** C7: the same mapper, the reducer at s3://bucket/word_reducer.py, version
    "4.1.0", no extra parameters: after the jar path come [-files] and the
    two addresses joined by backslash-backslash-comma, then [-output],
    [-input], [-mapper] and [-reducer] with the base filenames. *)
Theorem create_command_example_modern (input output : S3Node) :
  create_command_tokens word_mapper (Some word_reducer) "4.1.0"
    input output None
  = ["/home/hadoop/contrib/streaming/hadoop-streaming.jar";
     "-files"; "s3://bucket/word_mapper.py\\,s3://bucket/word_reducer.py";
     "-output"; uri (path output); "-input"; uri (path input);
     "-mapper"; "word_mapper.py"; "-reducer"; "word_reducer.py"]
  /\ create_command word_mapper (Some word_reducer) "4.1.0" input output None
     = join ","
         ["/home/hadoop/contrib/streaming/hadoop-streaming.jar";
          "-files"; "s3://bucket/word_mapper.py\\,s3://bucket/word_reducer.py";
          "-output"; uri (path output); "-input"; uri (path input);
          "-mapper"; "word_mapper.py"; "-reducer"; "word_reducer.py"].
Proof. split; reflexivity. Qed.

Example create_command_example_modern_string :
  create_command word_mapper (Some word_reducer) "4.1.0"
    sample_input sample_output None
  = "/home/hadoop/contrib/streaming/hadoop-streaming.jar,-files,s3://bucket/word_mapper.py\\,s3://bucket/word_reducer.py,-output,s3://bucket/out,-input,s3://bucket/in,-mapper,word_mapper.py,-reducer,word_reducer.py".
Proof. reflexivity. Qed.

(** ** The reducer *)

(** C8: without a reducer the token list has the mapper's tokens only, and
    in the modern variant the value of [-files] is the mapper's address
    alone; with a reducer it has, besides, the [-reducer] token with its
    value at the end and, in the modern variant, the reducer's address in
    the value of [-files].  Without a reducer no token is [-reducer], unless
    the caller's own strings hold one. *)
Theorem reducer_toggle m v i o hp :
  let legacy := str_in (ami_family v) HADOOP_1_SERIES in
  let front := streaming_jar :: default [] hp in
  let options := ["-output"; uri (path o); "-input"; uri (path i)] in
  create_command_tokens m None v i o hp
  = (if legacy
     then front ++ options ++ ["-mapper"; uri (s3_path m)]
     else front ++ ["-files"; uri (s3_path m)]
          ++ options ++ ["-mapper"; base_filename (s3_path m)])
  /\ (forall r,
        create_command_tokens m (Some r) v i o hp
        = (if legacy
           then front ++ options
                ++ ["-mapper"; uri (s3_path m); "-reducer"; uri (s3_path r)]
           else front
                ++ ["-files"; uri (s3_path m) +:+ "\\," +:+ uri (s3_path r)]
                ++ options
                ++ ["-mapper"; base_filename (s3_path m);
                    "-reducer"; base_filename (s3_path r)]))
  /\ (forall ro,
        create_command m ro v i o hp
        = join "," (create_command_tokens m ro v i o hp))
  /\ (~ In "-reducer"
          (default [] hp
           ++ [uri (path o); uri (path i); uri (s3_path m);
               base_filename (s3_path m)]) ->
      ~ In "-reducer" (create_command_tokens m None v i o hp)).
Proof.
  cbn zeta. split_and!.
  - rewrite create_command_tokens_layout.
    by destruct (str_in (ami_family v) HADOOP_1_SERIES).
  - intros r. rewrite create_command_tokens_layout.
    by destruct (str_in (ami_family v) HADOOP_1_SERIES).
  - intros ro. apply create_command_join.
  - rewrite create_command_tokens_layout. intros Hfresh Hin. apply Hfresh.
    rewrite in_app_iff. cbn [In].
    destruct (str_in (ami_family v) HADOOP_1_SERIES).
    + rewrite legacy_layout_front in Hin.
      apply in_app_iff in Hin as [[Hin | Hin] | Hin]; cbn [In] in Hin;
        [discriminate Hin | tauto | ].
      intuition discriminate.
    + rewrite modern_layout_front in Hin.
      apply in_app_iff in Hin as [[Hin | Hin] | Hin]; cbn [In] in Hin;
        [discriminate Hin | tauto | ].
      unfold modern_files in Hin. intuition discriminate.
Qed.

Lemma reducer_toggle_witness :
  ~ In "-reducer"
      (create_command_tokens word_mapper None "4.1.0"
         sample_input sample_output (Some ["-D"; "mapred.reduce.tasks=0"])).
Proof.
  destruct (reducer_toggle word_mapper "4.1.0" sample_input sample_output
              (Some ["-D"; "mapred.reduce.tasks=0"])) as (_ & _ & _ & Hnone).
  apply Hnone. cbn. intuition discriminate.
Defined.

(** ** The version string and the extra parameters as inputs *)

(** C9: two version strings with the same text in front of their first
    ['.'] give the same command string, all other arguments being equal. *)
Theorem create_command_major_only m r v1 v2 i o hp major :
  leading_component v1 major -> leading_component v2 major ->
  create_command m r v1 i o hp = create_command m r v2 i o hp.
Proof.
  intros H1%leading_component_ami_family H2%leading_component_ami_family.
  unfold create_command. by rewrite H1, H2.
Qed.

Lemma create_command_major_only_witness :
  create_command word_mapper (Some word_reducer) "2.4.0"
    sample_input sample_output None
  = create_command word_mapper (Some word_reducer) "2.10"
      sample_input sample_output None.
Proof.
  apply (create_command_major_only word_mapper (Some word_reducer)
           "2.4.0" "2.10" sample_input sample_output None "2").
  - split; [reflexivity|]. right. exists "4.0". reflexivity.
  - split; [reflexivity|]. right. exists "10". reflexivity.
Defined.

(** C10: an empty list of extra parameters gives the same token list and
    the same command string as no extra parameters: extending the command
    with no token leaves the jar path alone. *)
Theorem create_command_empty_params m r v i o :
  command_init (Some []) = command_init None
  /\ create_command_tokens m r v i o (Some [])
     = create_command_tokens m r v i o None
  /\ create_command m r v i o (Some []) = create_command m r v i o None.
Proof.
  assert (command_init (Some []) = command_init None) as Hinit.
  { unfold command_init. apply app_nil_r. }
  split_and!; [done| |].
  - unfold create_command_tokens. by rewrite Hinit.
  - unfold create_command. by rewrite Hinit.
Qed.

(** ** Further properties of the module *)

(** *** Splitting the command string at its commas *)

Lemma split_no_sep (sep : ascii) (t : string) :
  contains sep t = false -> split sep t = [t].
Proof.
  induction t as [|c t IH]; intros Hc; [reflexivity|].
  cbn [contains] in Hc. apply orb_false_elim in Hc as [Hc Ht].
  cbn [split]. by rewrite Hc, (IH Ht).
Qed.

Lemma split_append_sep (sep : ascii) (t s : string) :
  contains sep t = false ->
  split sep (t +:+ String sep s) = t :: split sep s.
Proof.
  induction t as [|c t IH]; intros Hc.
  - change ("" +:+ String sep s) with (String sep s).
    cbn [split]. by rewrite Ascii.eqb_refl.
  - cbn [contains] in Hc. apply orb_false_elim in Hc as [Hc Ht].
    rewrite append_cons. cbn [split]. by rewrite Hc, (IH Ht).
Qed.

(** [sep.join(tokens).split(sep)] gives the tokens back when there is a
    token and no token holds the separator. *)
Lemma split_join (sep : ascii) (tokens : list string) :
  tokens <> [] ->
  Forall (fun t => contains sep t = false) tokens ->
  split sep (join (String sep "") tokens) = tokens.
Proof.
  induction tokens as [|t tokens IH]; [done|]. intros _ Hall.
  apply Forall_cons in Hall as [Ht Hall].
  destruct tokens as [|t' tokens].
  - by apply split_no_sep.
  - rewrite join_cons2.
    change (String sep "" +:+ join (String sep "") (t' :: tokens))
      with (String sep (join (String sep "") (t' :: tokens))).
    rewrite (split_append_sep _ _ _ Ht). f_equal. by apply IH.
Qed.

Lemma join_snoc (sep : string) (tokens : list string) (t : string) :
  tokens <> [] -> join sep (tokens ++ [t]) = join sep tokens +:+ sep +:+ t.
Proof.
  induction tokens as [|x tokens IH]; [done|]. intros _.
  destruct tokens as [|y tokens]; [reflexivity|].
  change ((x :: y :: tokens) ++ [t]) with (x :: (y :: tokens) ++ [t]).
  change (join sep (x :: (y :: tokens) ++ [t]))
    with (x +:+ sep +:+ join sep ((y :: tokens) ++ [t])).
  rewrite IH by done. by rewrite join_cons2, !append_assoc.
Qed.

Lemma create_command_tokens_jar m r v i o hp :
  exists rest, create_command_tokens m r v i o hp = streaming_jar :: rest
               /\ rest <> [].
Proof.
  rewrite create_command_tokens_layout.
  destruct (str_in (ami_family v) HADOOP_1_SERIES).
  - rewrite legacy_layout_front. eexists. split; [reflexivity|].
    by destruct (default [] hp).
  - rewrite modern_layout_front. eexists. split; [reflexivity|].
    by destruct (default [] hp).
Qed.

(** X1: whatever the arguments, the command string is the jar path, a
    comma and a remainder, and splitting it at its commas gives the jar path
    as the first piece. *)
Theorem create_command_starts_with_jar m r v i o hp :
  exists rest,
    create_command m r v i o hp
    = "/home/hadoop/contrib/streaming/hadoop-streaming.jar," +:+ rest
    /\ split "," (create_command m r v i o hp)
       = "/home/hadoop/contrib/streaming/hadoop-streaming.jar"
         :: split "," rest.
Proof.
  rewrite create_command_join.
  destruct (create_command_tokens_jar m r v i o hp) as (rest & -> & Hrest).
  destruct rest as [|t rest]; [done|].
  exists (join "," (t :: rest)). rewrite join_cons2. split; [reflexivity|].
  change ("," +:+ join "," (t :: rest))
    with (String "," (join "," (t :: rest))).
  by apply split_append_sep.
Qed.

(** X2: when no token of the command holds a comma, splitting the command
    string at its commas gives back the token list. *)
Theorem create_command_split_tokens m r v i o hp :
  Forall (fun t => contains "," t = false)
    (create_command_tokens m r v i o hp) ->
  split "," (create_command m r v i o hp) = create_command_tokens m r v i o hp.
Proof.
  intros Hall. rewrite create_command_join.
  apply split_join; [|done].
  by destruct (create_command_tokens_jar m r v i o hp) as (rest & -> & _).
Qed.

Lemma create_command_split_tokens_witness :
  split ","
    (create_command word_mapper (Some word_reducer) "2.4.0"
       sample_input sample_output (Some ["-D"; "mapred.reduce.tasks=2"]))
  = ["/home/hadoop/contrib/streaming/hadoop-streaming.jar";
     "-D"; "mapred.reduce.tasks=2";
     "-output"; "s3://bucket/out"; "-input"; "s3://bucket/in";
     "-mapper"; "s3://bucket/word_mapper.py";
     "-reducer"; "s3://bucket/word_reducer.py"].
Proof.
  apply (create_command_split_tokens word_mapper (Some word_reducer) "2.4.0"
           sample_input sample_output (Some ["-D"; "mapred.reduce.tasks=2"])).
  repeat constructor.
Defined.

(** X3: in the modern variant with a reducer, the value of [-files] holds
    a comma of its own.  When no string of the caller holds a comma,
    splitting the command string at its commas cuts that value in two, the
    mapper's address followed by two backslashes and the reducer's address,
    and so gives one piece more than there are tokens. *)
Theorem modern_reducer_split m r v i o hp :
  str_in (ami_family v) HADOOP_1_SERIES = false ->
  Forall (fun t => contains "," t = false)
    (default [] hp
     ++ [uri (path o); uri (path i); uri (s3_path m); uri (s3_path r);
         base_filename (s3_path m); base_filename (s3_path r)]) ->
  split "," (create_command m (Some r) v i o hp)
  = (streaming_jar :: default [] hp)
    ++ ["-files"; uri (s3_path m) +:+ "\\"; uri (s3_path r);
        "-output"; uri (path o); "-input"; uri (path i);
        "-mapper"; base_filename (s3_path m);
        "-reducer"; base_filename (s3_path r)]
  /\ length (split "," (create_command m (Some r) v i o hp))
     = S (length (create_command_tokens m (Some r) v i o hp)).
Proof.
  intros Hs Hall.
  apply Forall_app in Hall as [Hhp Hall].
  repeat (apply Forall_cons in Hall as [? Hall]).
  assert (split "," (create_command m (Some r) v i o hp)
          = (streaming_jar :: default [] hp)
            ++ ["-files"; uri (s3_path m) +:+ "\\"; uri (s3_path r);
                "-output"; uri (path o); "-input"; uri (path i);
                "-mapper"; base_filename (s3_path m);
                "-reducer"; base_filename (s3_path r)]) as Hsplit.
  { rewrite create_command_join, create_command_tokens_layout, Hs,
      modern_layout_front.
    transitivity (split "," (join ","
      ((streaming_jar :: default [] hp)
       ++ ["-files"; uri (s3_path m) +:+ "\\"; uri (s3_path r);
           "-output"; uri (path o); "-input"; uri (path i);
           "-mapper"; base_filename (s3_path m);
           "-reducer"; base_filename (s3_path r)]))).
    - f_equal. rewrite !join_app_cons. f_equal.
      unfold modern_files. rewrite !join_cons2, !append_assoc. reflexivity.
    - apply split_join; [done|].
      apply Forall_app. split; [by constructor|].
      repeat (apply Forall_cons; split); try done.
      rewrite contains_append. by rewrite orb_false_r. }
  split; [done|].
  rewrite Hsplit, create_command_tokens_layout, Hs, modern_layout_front.
  rewrite !length_app. cbn [length]. lia.
Qed.

Lemma modern_reducer_split_witness :
  split ","
    (create_command word_mapper (Some word_reducer) "4.1.0"
       sample_input sample_output None)
  = [streaming_jar]
    ++ ["-files"; "s3://bucket/word_mapper.py\\";
        "s3://bucket/word_reducer.py";
        "-output"; "s3://bucket/out"; "-input"; "s3://bucket/in";
        "-mapper"; "word_mapper.py"; "-reducer"; "word_reducer.py"]
  /\ length (split ","
               (create_command word_mapper (Some word_reducer) "4.1.0"
                  sample_input sample_output None))
     = S (length (create_command_tokens word_mapper (Some word_reducer)
                    "4.1.0" sample_input sample_output None)).
Proof.
  apply (modern_reducer_split word_mapper word_reducer "4.1.0"
           sample_input sample_output None).
  - reflexivity.
  - repeat constructor.
Defined.

(** X4: in the legacy variant a reducer only adds to the end of the command
    string: the string with the reducer is the string without it followed
    by [,-reducer,] and the reducer's address. *)
Theorem legacy_reducer_appends m r v i o hp :
  str_in (ami_family v) HADOOP_1_SERIES = true ->
  create_command m (Some r) v i o hp
  = create_command m None v i o hp +:+ ",-reducer," +:+ uri (s3_path r).
Proof.
  intros Hs. rewrite !create_command_join, !create_command_tokens_layout, Hs.
  assert (legacy_layout m (Some r) i o hp
          = (legacy_layout m None i o hp ++ ["-reducer"])
            ++ [uri (s3_path r)]) as ->.
  { unfold legacy_layout. by rewrite <- !app_assoc. }
  rewrite !join_snoc.
  - by rewrite !append_assoc.
  - rewrite legacy_layout_front. discriminate.
  - by destruct (legacy_layout m None i o hp).
Qed.

Lemma legacy_reducer_appends_witness :
  create_command word_mapper (Some word_reducer) "2.4.0"
    sample_input sample_output None
  = create_command word_mapper None "2.4.0" sample_input sample_output None
    +:+ ",-reducer," +:+ "s3://bucket/word_reducer.py".
Proof.
  apply (legacy_reducer_appends word_mapper word_reducer "2.4.0"
           sample_input sample_output None).
  reflexivity.
Defined.

(** *** The versions of each variant *)

Lemma legacy_version_iff (v : string) :
  str_in (ami_family v) HADOOP_1_SERIES = true
  <-> v = "1" \/ v = "2"
      \/ (exists rest, v = "1." +:+ rest) \/ (exists rest, v = "2." +:+ rest).
Proof.
  rewrite str_in_series. split.
  - destruct (ami_family_leading v) as [_ Hv].
    intros [Hf | Hf]; rewrite Hf in Hv; destruct Hv as [-> | [rest ->]];
      eauto 6.
  - intros [-> | [-> | [[rest ->] | [rest ->]]]]; [by left | by right | |].
    + left. by apply (ami_family_append_dot "1" rest).
    + right. by apply (ami_family_append_dot "2" rest).
Qed.

(** X5: the version string decides between two results only.  The command
    string is the one of version "1" exactly when the version is "1" or "2"
    or starts with "1." or "2.", and the one of the empty version exactly
    when it is none of these. *)
Theorem create_command_by_version m r v i o hp :
  let legacy :=
    v = "1" \/ v = "2"
    \/ (exists rest, v = "1." +:+ rest) \/ (exists rest, v = "2." +:+ rest) in
  (legacy <-> create_command m r v i o hp = create_command m r "1" i o hp)
  /\ (~ legacy <-> create_command m r v i o hp = create_command m r "" i o hp).
Proof.
  cbn zeta. rewrite <- legacy_version_iff.
  rewrite !create_command_join, !create_command_tokens_layout.
  change (str_in (ami_family "1") HADOOP_1_SERIES) with true.
  change (str_in (ami_family "") HADOOP_1_SERIES) with false.
  pose proof (layouts_joined_differ m r i o hp) as Hj.
  destruct (str_in (ami_family v) HADOOP_1_SERIES); split; split; done.
Qed.

(** *** The keyword arguments of the constructor *)

(** X6: the head of the constructor hands on the keyword arguments with
    every key other than [input_node] as it was; [input_node] is taken out
    when an [input_path] is given and left in place otherwise, and the node
    it held, [None] when there was none, becomes the local [input_node]. *)
Theorem EMRStreamingStep_init_kwargs {V : Type} (input_path : option string)
    (kwargs : gmap string (option V)) :
  exists kwargs',
    EMRStreamingStep_init input_path kwargs
    = inr (default None (kwargs !! "input_node"), kwargs')
    /\ (forall key, key <> "input_node" -> kwargs' !! key = kwargs !! key)
    /\ kwargs' !! "input_node"
       = match input_path with
         | Some _ => None
         | None => kwargs !! "input_node"
         end.
Proof.
  destruct input_path as [p|].
  - exists (delete "input_node" kwargs). split_and!.
    + apply EMRStreamingStep_init_input_path.
    + intros key Hkey. by apply lookup_delete_ne.
    + apply lookup_delete_eq.
  - exists kwargs. split_and!; [|done..].
    apply EMRStreamingStep_init_no_input_path.
Qed.

(** *** The scripts of the constructor and the files of the command *)

(** X7: for a version of the modern variant, the value of [-files] in the
    step string of the constructor is the addresses of the scripts in
    [additional_files], in their order, joined by backslash-backslash-comma:
    the mapper alone without a reducer path, the mapper and the reducer
    with one. *)
Theorem EMRStreamingStep_init_scripts_files create_script mapper reducer
    v i o hp :
  str_in (ami_family v) HADOOP_1_SERIES = false ->
  let result :=
    EMRStreamingStep_init_scripts create_script mapper reducer v i o hp in
  length result.1 = match reducer with Some _ => 2 | None => 1 end
  /\ exists options,
       result.2
       = join ","
           ((streaming_jar :: default [] hp)
            ++ ["-files";
                join "\\," (map (fun script => uri (s3_path script)) result.1)]
            ++ "-output" :: options).
Proof.
  intros Hs. unfold EMRStreamingStep_init_scripts.
  destruct reducer as [reducer|]; cbn [fst snd app length map join]; (split; [done|]);
    rewrite create_command_join, create_command_tokens_layout, Hs,
      modern_layout_front; eexists; reflexivity.
Qed.

Lemma EMRStreamingStep_init_scripts_files_witness :
  let result :=
    EMRStreamingStep_init_scripts
      (fun p => {| s3_path := {| uri := "s3://bucket/" +:+ p;
                                 base_filename := p |} |})
      "word_mapper.py" (Some "word_reducer.py") "4.1.0"
      sample_input sample_output None in
  length result.1 = 2
  /\ exists options,
       result.2
       = join ","
           ((streaming_jar :: default [] None)
            ++ ["-files";
                join "\\," (map (fun script => uri (s3_path script)) result.1)]
            ++ "-output" :: options).
Proof.
  apply (EMRStreamingStep_init_scripts_files
           (fun p => {| s3_path := {| uri := "s3://bucket/" +:+ p;
                                      base_filename := p |} |})
           "word_mapper.py" (Some "word_reducer.py") "4.1.0"
           sample_input sample_output None).
  reflexivity.
Defined.

(** *** Merging the input nodes *)

(** X8: for a dictionary built from named nodes with distinct names,
    [merge_s3_nodes] returns as output the nodes of these items, each as
    often as it is named and in some order, and no dependency. *)
Theorem merge_s3_nodes_values {N D : Type} (items : list (string * N)) :
  NoDup items.*1 ->
  (merge_s3_nodes (D:=D) (list_to_map items)).1 ≡ₚ items.*2
  /\ (merge_s3_nodes (D:=D) (list_to_map items)).2 = []
  /\ length (merge_s3_nodes (D:=D) (list_to_map items)).1 = length items.
Proof.
  intros Hnames. unfold merge_s3_nodes. cbn [fst snd].
  pose proof (map_to_list_to_map (M:=gmap string) items Hnames) as Hitems.
  split_and!.
  - by rewrite Hitems.
  - reflexivity.
  - by rewrite Hitems, length_fmap.
Qed.

Lemma merge_s3_nodes_values_witness :
  (merge_s3_nodes (D:=string)
     (list_to_map [("a", 1); ("b", 2); ("c", 1)])).1
  ≡ₚ [1; 2; 1]
  /\ (merge_s3_nodes (D:=string)
        (list_to_map [("a", 1); ("b", 2); ("c", 1)])).2 = []
  /\ length (merge_s3_nodes (D:=string)
               (list_to_map [("a", 1); ("b", 2); ("c", 1)])).1 = 3.
Proof.
  apply (merge_s3_nodes_values (D:=string) [("a", 1); ("b", 2); ("c", 1)]).
  apply (bool_decide_unpack _). vm_compute. reflexivity.
Defined.
